(** * The root component of the react-app: packages/react-app/src/App.jsx

    A shallow embedding of the module: the values it computes at load, the
    [App] function component with its three [useState] cells and its
    effects, the handlers it registers with the wallet, and the page as a
    transition system driven by the events the browser, React, the wallet
    modal and the backend deliver to it.

    Console output is not modelled. *)

From stdpp Require Import gmap strings list.
From Stdlib Require Import ZArith.

#[local] Set Warnings "-register-all".
#[local] Open Scope Z_scope.
#[local] Open Scope string_scope.
#[local] Open Scope list_scope.

(** ** JavaScript values, as far as this module looks at them *)

Module Js.

(** An object is a reference together with the properties it holds at the
    moment it is read; numbers are the integers (chain ids) plus NaN. *)
Inductive JsVal : Type :=
| JUndefined
| JNull
| JBool (b : bool)
| JNum (n : Z)
| JNaN
| JStr (s : string)
| JObj (ref : nat) (props : gmap string JsVal).

(** The result of evaluating an expression: a value, or a thrown one. *)
Inductive Completion (A : Type) : Type :=
| Normal (a : A)
| Throw (e : JsVal).
Arguments Normal {A} a.
Arguments Throw {A} e.

#[global] Instance completion_ret : MRet Completion := fun _ a => Normal a.
#[global] Instance completion_bind : MBind Completion := fun _ _ k c =>
  match c with
  | Normal a => k a
  | Throw e => Throw e
  end.

Definition TypeError : JsVal := JStr "TypeError".

(** ToBoolean *)
Definition truthy (v : JsVal) : bool :=
  match v with
  | JUndefined | JNull | JNaN => false
  | JBool b => b
  | JNum n => negb (Z.eqb n 0)
  | JStr s => match s with EmptyString => false | String _ _ => true end
  | JObj _ _ => true
  end.

(** Object.is, the comparison React applies to dependency arrays:
    primitives by value, objects by reference. *)
Definition same_value (a b : JsVal) : bool :=
  match a, b with
  | JUndefined, JUndefined | JNull, JNull | JNaN, JNaN => true
  | JBool x, JBool y => bool_decide (x = y)
  | JNum x, JNum y => bool_decide (x = y)
  | JStr x, JStr y => bool_decide (x = y)
  | JObj r _, JObj r' _ => bool_decide (r = r')
  | _, _ => false
  end.

(** [v.k]: a TypeError on undefined and null, the own property of an
    object (undefined when it has none), and undefined on the other
    primitives, none of whose prototypes defines a property name this
    module reads. *)
Definition get (v : JsVal) (k : string) : Completion JsVal :=
  match v with
  | JUndefined | JNull => Throw TypeError
  | JObj _ props => Normal (default JUndefined (props !! k))
  | JBool _ | JNum _ | JNaN | JStr _ => Normal JUndefined
  end.

(** [a && b]: [b] is evaluated only when [a] is truthy. *)
Definition and_then (a : JsVal) (b : Completion JsVal) : Completion JsVal :=
  if truthy a then b else Normal a.

End Js.
Import Js.

(** ** What the module imports *)

(** One entry of NETWORKS in ./constants. *)
Record Network := { rpcUrl : JsVal; blockExplorer : JsVal }.

(** The imported names whose code is outside this file.  The two hooks keep
    state of their own, [HookState], which a render reads; [Web3Provider]
    is the constructor, which builds an object from its argument or throws. *)
Record Imports := {
  HookState : Type;
  useUserProvider : HookState -> JsVal -> JsVal;
  useUserAddress : HookState -> JsVal -> JsVal;
  Web3Provider : JsVal -> Completion JsVal;
  INFURA_ID : string;
  NETWORKS_mainnet : Network;
  serverUrl : string;
}.

(** ** Module constants *)

Definition DEBUG : bool := true.

Module USER_ROLES.
Definition admin : JsVal := JStr "user_role.administrator".
Definition anonymous : JsVal := JStr "user_role.anonymous".
Definition registered : JsVal := JStr "user_role.registered".
End USER_ROLES.

(** ** Requests and observable actions *)

Inductive Method := GET | POST | PUT | PATCH | DELETE.

Record Request := {
  method : Method;
  url : string;
  params : gmap string JsVal;
  body : option JsVal;
}.

(** axios.get(url, { params }) *)
Definition axios_get (u : string) (ps : gmap string JsVal) : Request :=
  {| method := GET; url := u; params := ps; body := None |}.

Inductive Effect :=
| NewStaticJsonRpcProvider (u : JsVal)
| NewWeb3Modal
| EthereumOn (event : string)
| Connect
| ClearCachedProvider
| Http (r : Request)
| SetTimeout (ms : Z)
| Reload.

Record FlashMessage := { status : string; text : JsVal }.

(** ** The page *)

(** What the module reads from its surroundings while it loads. *)
Record LoadEnv := {
  REACT_APP_PROVIDER : JsVal;   (* process.env.REACT_APP_PROVIDER *)
  ethereum : JsVal;             (* window.ethereum *)
}.

(** The three [useState] cells of [App], React's record of the last
    committed dependency array of the role effect ([None] before the first
    commit), the asynchronous calls in flight, and the actions performed so
    far, oldest first. *)
Record State := {
  injectedProvider : JsVal;
  userRole : JsVal;
  flashMessages : list FlashMessage;
  roleDeps : option JsVal;
  connecting : nat;             (* web3Modal.connect() promises not yet settled *)
  fetching : list nat;          (* axios.get promises not yet settled *)
  nextFetch : nat;
  clearing : nat;               (* logoutOfWeb3Modal calls awaiting clearCachedProvider *)
  timers : nat;                 (* reload timers not yet fired *)
  listening : list string;      (* events registered with window.ethereum.on *)
  unloaded : bool;              (* window.location.reload() has run *)
  trace : list Effect;
}.

Definition emit (a : Effect) (s : State) : State :=
  {| injectedProvider := injectedProvider s; userRole := userRole s;
     flashMessages := flashMessages s; roleDeps := roleDeps s;
     connecting := connecting s; fetching := fetching s; nextFetch := nextFetch s;
     clearing := clearing s; timers := timers s; listening := listening s;
     unloaded := unloaded s; trace := trace s ++ [a] |}.

Definition setInjectedProvider (v : JsVal) (s : State) : State :=
  {| injectedProvider := v; userRole := userRole s;
     flashMessages := flashMessages s; roleDeps := roleDeps s;
     connecting := connecting s; fetching := fetching s; nextFetch := nextFetch s;
     clearing := clearing s; timers := timers s; listening := listening s;
     unloaded := unloaded s; trace := trace s |}.

Definition setUserRole (r : JsVal) (s : State) : State :=
  {| injectedProvider := injectedProvider s; userRole := r;
     flashMessages := flashMessages s; roleDeps := roleDeps s;
     connecting := connecting s; fetching := fetching s; nextFetch := nextFetch s;
     clearing := clearing s; timers := timers s; listening := listening s;
     unloaded := unloaded s; trace := trace s |}.

(** setFlashMessages with an updater function *)
Definition setFlashMessages (f : list FlashMessage -> list FlashMessage) (s : State) : State :=
  {| injectedProvider := injectedProvider s; userRole := userRole s;
     flashMessages := f (flashMessages s); roleDeps := roleDeps s;
     connecting := connecting s; fetching := fetching s; nextFetch := nextFetch s;
     clearing := clearing s; timers := timers s; listening := listening s;
     unloaded := unloaded s; trace := trace s |}.

Definition set_roleDeps (d : option JsVal) (s : State) : State :=
  {| injectedProvider := injectedProvider s; userRole := userRole s;
     flashMessages := flashMessages s; roleDeps := d;
     connecting := connecting s; fetching := fetching s; nextFetch := nextFetch s;
     clearing := clearing s; timers := timers s; listening := listening s;
     unloaded := unloaded s; trace := trace s |}.

Definition set_connecting (n : nat) (s : State) : State :=
  {| injectedProvider := injectedProvider s; userRole := userRole s;
     flashMessages := flashMessages s; roleDeps := roleDeps s;
     connecting := n; fetching := fetching s; nextFetch := nextFetch s;
     clearing := clearing s; timers := timers s; listening := listening s;
     unloaded := unloaded s; trace := trace s |}.

Definition set_fetching (l : list nat) (n : nat) (s : State) : State :=
  {| injectedProvider := injectedProvider s; userRole := userRole s;
     flashMessages := flashMessages s; roleDeps := roleDeps s;
     connecting := connecting s; fetching := l; nextFetch := n;
     clearing := clearing s; timers := timers s; listening := listening s;
     unloaded := unloaded s; trace := trace s |}.

Definition set_clearing (n : nat) (s : State) : State :=
  {| injectedProvider := injectedProvider s; userRole := userRole s;
     flashMessages := flashMessages s; roleDeps := roleDeps s;
     connecting := connecting s; fetching := fetching s; nextFetch := nextFetch s;
     clearing := n; timers := timers s; listening := listening s;
     unloaded := unloaded s; trace := trace s |}.

Definition set_timers (n : nat) (s : State) : State :=
  {| injectedProvider := injectedProvider s; userRole := userRole s;
     flashMessages := flashMessages s; roleDeps := roleDeps s;
     connecting := connecting s; fetching := fetching s; nextFetch := nextFetch s;
     clearing := clearing s; timers := n; listening := listening s;
     unloaded := unloaded s; trace := trace s |}.

Definition set_unloaded (s : State) : State :=
  {| injectedProvider := injectedProvider s; userRole := userRole s;
     flashMessages := flashMessages s; roleDeps := roleDeps s;
     connecting := connecting s; fetching := fetching s; nextFetch := nextFetch s;
     clearing := clearing s; timers := timers s; listening := listening s;
     unloaded := true; trace := trace s |}.

Section Page.
Context (L : Imports).

(** *** Module level *)

Definition targetNetwork : Network := NETWORKS_mainnet L.

Definition scaffoldEthProviderUrl : JsVal := JStr "https://rpc.scaffoldeth.io:48544".
Definition mainnetInfuraUrl : JsVal := JStr ("https://mainnet.infura.io/v3/" +:+ INFURA_ID L).

Definition localProviderUrl : JsVal := rpcUrl targetNetwork.
Definition localProviderUrlFromEnv (env : LoadEnv) : JsVal :=
  if truthy (REACT_APP_PROVIDER env) then REACT_APP_PROVIDER env else localProviderUrl.

(** setTimeout(() => { window.location.reload(); }, 1) *)
Definition reload_later (s : State) : State :=
  set_timers (S (timers s)) (emit (SetTimeout 1) s).

(** The handler given to window.ethereum.on, the same for "chainChanged" and
    "accountsChanged"; its argument is web3Modal.cachedProvider as read when
    the handler runs. *)
Definition on_wallet_event (cachedProvider : JsVal) (s : State) : State :=
  if truthy cachedProvider then reload_later s else s.

(** logoutOfWeb3Modal up to its await, and from there on. *)
Definition logoutOfWeb3Modal (s : State) : State :=
  set_clearing (S (clearing s)) (emit ClearCachedProvider s).
Definition logoutOfWeb3Modal_resume (outcome : Completion JsVal) (s : State) : State :=
  match outcome with
  | Normal _ => reload_later s
  | Throw _ => s
  end.

(** Evaluation of the module body.  The state cells of [App] get here the
    initial values its first render gives them. *)
Definition module_load (env : LoadEnv) : State :=
  {| injectedProvider := JUndefined;
     userRole := USER_ROLES.anonymous;
     flashMessages := [];
     roleDeps := None;
     connecting := 0; fetching := []; nextFetch := 0; clearing := 0; timers := 0;
     listening := if truthy (ethereum env) then ["chainChanged"; "accountsChanged"] else [];
     unloaded := false;
     trace := [NewStaticJsonRpcProvider scaffoldEthProviderUrl;
               NewStaticJsonRpcProvider mainnetInfuraUrl;
               NewStaticJsonRpcProvider (localProviderUrlFromEnv env);
               NewWeb3Modal]
              ++ (if truthy (ethereum env)
                  then [EthereumOn "chainChanged"; EthereumOn "accountsChanged"]
                  else []) |}.

(** *** The component *)

(** What a render reads besides the state cells: the hooks' own state, the
    three provider objects as they are at that moment (the library fills in
    [_network] once it has detected the network), and
    web3Modal.cachedProvider. *)
Record Snapshot := {
  hooks : HookState L;
  scaffoldEthProvider : JsVal;
  mainnetInfura : JsVal;
  localProvider : JsVal;
  cachedProvider : JsVal;
}.

(** The values a render computes and hands to its children. *)
Record View := {
  mainnetProvider : JsVal;
  userProvider : JsVal;
  address : JsVal;
  localChainId : JsVal;
  selectedChainId : JsVal;
}.

Definition App (s : State) (env : Snapshot) : Completion View :=
  c ← and_then (scaffoldEthProvider env) (get (scaffoldEthProvider env) "_network");
  let mainnetProvider := if truthy c then scaffoldEthProvider env else mainnetInfura env in
  let userProvider := useUserProvider L (hooks env) (injectedProvider s) in
  let address := useUserAddress L (hooks env) userProvider in
  l ← and_then (localProvider env) (get (localProvider env) "_network");
  localChainId ← and_then l (n ← get (localProvider env) "_network"; get n "chainId");
  u ← and_then userProvider (get userProvider "_network");
  selectedChainId ← and_then u (n ← get userProvider "_network"; get n "chainId");
  mret {| mainnetProvider := mainnetProvider; userProvider := userProvider;
          address := address; localChainId := localChainId;
          selectedChainId := selectedChainId |}.

(** loadWeb3Modal up to its await, and from there on. *)
Definition loadWeb3Modal (s : State) : State :=
  set_connecting (S (connecting s)) (emit Connect s).
Definition loadWeb3Modal_resume (outcome : Completion JsVal) (s : State) : State :=
  match outcome ≫= Web3Provider L with
  | Normal w => setInjectedProvider w s
  | Throw _ => s
  end.

(** fetchUserData up to its await; [classify] is the argument of setUserRole
    in the try block; [fetchUserData_resume] is the rest of the try and the
    catch. *)
Definition fetchUserData (address : JsVal) (s : State) : State :=
  set_fetching (nextFetch s :: fetching s) (S (nextFetch s))
    (emit (Http (axios_get (serverUrl L +:+ "/user") {[ "address" := address ]})) s).
Definition classify (fetchedUserObject : JsVal) : Completion JsVal :=
  data ← get fetchedUserObject "data";
  isAdmin ← get data "isAdmin";
  mret (if truthy isAdmin then USER_ROLES.admin else USER_ROLES.registered).
Definition fetchUserData_resume (outcome : Completion JsVal) (s : State) : State :=
  match outcome ≫= classify with
  | Normal role => setUserRole role s
  | Throw _ => setUserRole USER_ROLES.anonymous s
  end.

(** The two effects whose callbacks act on the page. *)
Definition connect_effect (cachedProvider : JsVal) (s : State) : State :=
  if truthy cachedProvider then loadWeb3Modal s else s.
Definition role_effect (address : JsVal) (s : State) : State :=
  if truthy address then fetchUserData address s else s.

Definition flashMessage_success (message : JsVal) (s : State) : State :=
  setFlashMessages (fun prevFlashMessages =>
    prevFlashMessages ++ [{| status := "success"; text := message |}]) s.
Definition flashMessage_error (message : JsVal) (s : State) : State :=
  setFlashMessages (fun prevFlashMessages =>
    prevFlashMessages ++ [{| status := "error"; text := message |}]) s.

(** *** React and the browser *)

(** An effect runs after the first commit and after every commit whose
    dependency array differs from the one before. *)
Definition deps_changed (prev : option JsVal) (a : JsVal) : bool :=
  match prev with
  | None => true
  | Some b => negb (same_value b a)
  end.

(** The effects of one commit, in the order of their useEffect calls.
    loadWeb3Modal is memoised on the setter of a state cell, which never
    changes, so the effect depending on it runs at the first commit only. *)
Definition commit (env : Snapshot) (v : View) (s : State) : State :=
  let s1 := match roleDeps s with
            | None => connect_effect (cachedProvider env) s
            | Some _ => s
            end in
  let s2 := if deps_changed (roleDeps s) (address v) then role_effect (address v) s1 else s1 in
  set_roleDeps (Some (address v)) s2.

Inductive Event :=
| Commit (env : Snapshot)                          (* App is rendered and committed *)
| Click_loadWeb3Modal                              (* Header calls its loadWeb3Modal prop *)
| ConnectSettled (outcome : Completion JsVal)      (* a web3Modal.connect() promise settles *)
| FetchSettled (i : nat) (outcome : Completion JsVal)   (* an axios.get promise settles *)
| FlashSuccess (message : JsVal)                   (* a child calls flashMessage.success *)
| FlashError (message : JsVal)                     (* a child calls flashMessage.error *)
| Click_logoutOfWeb3Modal                          (* Header calls its logoutOfWeb3Modal prop *)
| ClearSettled (outcome : Completion JsVal)        (* the await in logoutOfWeb3Modal resumes *)
| WalletEvent (name : string) (cachedProvider : JsVal)  (* window.ethereum emits name *)
| TimerFired                                       (* a reload timer fires *)
| Header_setUserRole (role : JsVal).               (* Header calls its setUserRole prop *)

Definition mounted (s : State) : bool :=
  match roleDeps s with Some _ => true | None => false end.

(** One event; [None] when it cannot happen in [s]. *)
Definition step (s : State) (e : Event) : option State :=
  if unloaded s then None else
  match e with
  | Commit env =>
      match App s env with
      | Normal v => Some (commit env v s)
      | Throw _ => None
      end
  | Click_loadWeb3Modal =>
      if mounted s then Some (loadWeb3Modal s) else None
  | ConnectSettled outcome =>
      match connecting s with
      | S n => Some (loadWeb3Modal_resume outcome (set_connecting n s))
      | O => None
      end
  | FetchSettled i outcome =>
      if bool_decide (i ∈ fetching s)
      then Some (fetchUserData_resume outcome
                   (set_fetching (filter (fun j => j ≠ i) (fetching s)) (nextFetch s) s))
      else None
  | FlashSuccess message =>
      if mounted s then Some (flashMessage_success message s) else None
  | FlashError message =>
      if mounted s then Some (flashMessage_error message s) else None
  | Click_logoutOfWeb3Modal =>
      if mounted s then Some (logoutOfWeb3Modal s) else None
  | ClearSettled outcome =>
      match clearing s with
      | S n => Some (logoutOfWeb3Modal_resume outcome (set_clearing n s))
      | O => None
      end
  | WalletEvent name cachedProvider =>
      if bool_decide (name ∈ listening s) then Some (on_wallet_event cachedProvider s) else None
  | TimerFired =>
      match timers s with
      | S n => Some (set_unloaded (emit Reload (set_timers n s)))
      | O => None
      end
  | Header_setUserRole role =>
      if mounted s then Some (setUserRole role s) else None
  end.

Fixpoint run (s : State) (es : list Event) : option State :=
  match es with
  | [] => Some s
  | e :: es => s' ← step s e; run s' es
  end.

(** *** Observations on a trace *)

Definition providers (t : list Effect) : list JsVal :=
  omap (fun a => match a with NewStaticJsonRpcProvider u => Some u | _ => None end) t.

Definition requests (t : list Effect) : list Request :=
  omap (fun a => match a with Http r => Some r | _ => None end) t.

Definition reloads (t : list Effect) : list unit :=
  omap (fun a => match a with Reload => Some () | _ => None end) t.

End Page.

(** ** Vocabulary of the statements *)

(** [p && p._network] is truthy: the provider is there and has its network. *)
Definition has_network (p : JsVal) : bool :=
  truthy p &&
  match get p "_network" with
  | Normal n => truthy n
  | Throw _ => false
  end.

(** [response.data.isAdmin] *)
Definition isAdmin_of (response : JsVal) : Completion JsVal :=
  data ← get response "data"; get data "isAdmin".

(** The address a render in state [s] obtains from the hooks. *)
Definition render_address (L : Imports) (s : State) (env : Snapshot L) : JsVal :=
  useUserAddress L (hooks L env) (useUserProvider L (hooks L env) (injectedProvider s)).


(** The one request the role effect makes for address [a]. *)
Definition user_request (L : Imports) (a : JsVal) : Request :=
  {| method := GET; url := serverUrl L +:+ "/user";
     params := {[ "address" := a ]}; body := None |}.

(** The requests one commit adds: one when the address is new and truthy. *)
Definition commit_requests (L : Imports) (s : State) (env : Snapshot L) : list Request :=
  if deps_changed (roleDeps s) (render_address L s env) && truthy (render_address L s env)
  then [user_request L (render_address L s env)]
  else [].

(** The shape of the one request this module makes. *)
Definition get_user (L : Imports) (r : Request) : Prop :=
  method r = GET /\ url r = serverUrl L +:+ "/user" /\ body r = None /\
  exists a, truthy a = true /\ params r = {[ "address" := a ]}.


(** *** Further observations on traces and runs *)

Definition connects (t : list Effect) : list unit :=
  omap (fun a => match a with Connect => Some () | _ => None end) t.

Definition registrations (t : list Effect) : list string :=
  omap (fun a => match a with EthereumOn name => Some name | _ => None end) t.

Definition timeouts (t : list Effect) : list Z :=
  omap (fun a => match a with SetTimeout ms => Some ms | _ => None end) t.

(** The role a settled fetch leaves in userRole. *)
Definition role_of (outcome : Completion JsVal) : JsVal :=
  match outcome ≫= classify with
  | Normal role => role
  | Throw _ => USER_ROLES.anonymous
  end.

(** The entry a flash call appends. *)
Definition flash_of (L : Imports) (e : Event L) : option FlashMessage :=
  match e with
  | FlashSuccess _ message => Some {| status := "success"; text := message |}
  | FlashError _ message => Some {| status := "error"; text := message |}
  | _ => None
  end.

(** The user's calls of the loadWeb3Modal prop in a run. *)
Definition clicks (L : Imports) (es : list (Event L)) : list unit :=
  omap (fun e => match e with Click_loadWeb3Modal _ => Some () | _ => None end) es.

(** The events on which the module asks for a reload: a logout, and a wallet
    event that finds a cached provider. *)
Definition asks_reload (L : Imports) (e : Event L) : bool :=
  match e with
  | Click_logoutOfWeb3Modal _ => true
  | WalletEvent _ _ cachedProvider => truthy cachedProvider
  | _ => false
  end.

Definition is_flash (L : Imports) (e : Event L) : bool :=
  match e with
  | FlashSuccess _ _ | FlashError _ _ => true
  | _ => false
  end.

(** The events that write userRole: a settled role fetch, and a call by
    Header of the setUserRole prop it is handed. *)
Definition writes_userRole (L : Imports) (e : Event L) : bool :=
  match e with
  | FetchSettled _ _ _ | Header_setUserRole _ _ => true
  | _ => false
  end.


(** What the page does after the load: the four kinds of asynchronous call
    it starts, each in the one form the module gives it, and the reload. *)
Definition page_action (L : Imports) (a : Effect) : Prop :=
  match a with
  | Connect | ClearCachedProvider | Reload => True
  | Http r => exists address, r = user_request L address
  | SetTimeout ms => ms = 1
  | NewStaticJsonRpcProvider _ | NewWeb3Modal | EthereumOn _ => False
  end.

(** The connect calls made so far, plus the one the first commit may still
    make on its own. *)
Definition connect_budget (s : State) : nat :=
  length (connects (trace s)) + (if mounted s then 0 else 1).

(** What a run that asks for no reload keeps. *)
Definition never_asked (s : State) : Prop :=
  timers s = 0%nat /\ clearing s = 0%nat /\ unloaded s = false /\
  reloads (trace s) = [] /\ timeouts (trace s) = [].

(** ** An instance of the imports, for examples *)

Module Sample.

(** The hooks' state is the address the wallet has reported so far; without
    an injected provider the user gets a burner provider. *)
Definition burner : JsVal := JObj 1 {[ "_network" := JObj 2 {[ "chainId" := JNum 1 ]} ]}.

(** The constructor as ethers has it: it refuses null and undefined, and any
    value that has none of request, sendAsync and send. *)
Definition new_Web3Provider (provider : JsVal) : Completion JsVal :=
  match provider with
  | JUndefined | JNull => Throw (JStr "missing provider")
  | _ =>
      request ← get provider "request";
      sendAsync ← get provider "sendAsync";
      send ← get provider "send";
      if truthy request || truthy sendAsync || truthy send
      then Normal (JObj 3 {[ "provider" := provider ]})
      else Throw (JStr "unsupported provider")
  end.

(** An EIP-1193 provider, as a wallet injects it. *)
Definition wallet : JsVal := JObj 9 {[ "request" := JObj 13 ∅ ]}.

Definition imports : Imports :=
  {| HookState := JsVal;
     useUserProvider := fun _ injected => if truthy injected then injected else burner;
     useUserAddress := fun account _ => account;
     Web3Provider := new_Web3Provider;
     INFURA_ID := "0123456789abcdef";
     NETWORKS_mainnet :=
       {| rpcUrl := JStr "https://mainnet.infura.io/v3/0123456789abcdef";
          blockExplorer := JStr "https://etherscan.io/" |};
     serverUrl := "http://localhost:49832" |}.

Definition no_wallet : LoadEnv := {| REACT_APP_PROVIDER := JUndefined; ethereum := JUndefined |}.
Definition with_wallet : LoadEnv := {| REACT_APP_PROVIDER := JUndefined; ethereum := JObj 4 ∅ |}.
Definition with_override : LoadEnv :=
  {| REACT_APP_PROVIDER := JStr "https://dai.poa.network"; ethereum := JUndefined |}.

(** A render at which the hooks report [account]; the scaffold provider has
    not detected its network yet. *)
Definition render_with (account : JsVal) : Snapshot imports :=
  {| hooks := account : HookState imports;
     scaffoldEthProvider := JObj 5 ∅;
     mainnetInfura := JObj 6 {[ "_network" := JObj 7 {[ "chainId" := JNum 1 ]} ]};
     localProvider := JObj 8 ∅;
     cachedProvider := JUndefined |}.

End Sample.

(** ** Properties of the values *)

Lemma truthy_get_normal v k : truthy v = true -> exists w, get v k = Normal w.
Proof. destruct v; simpl; intros H; try discriminate; eauto. Qed.

(** [p && p._network && p._network.chainId] never throws; its first half
    is truthy exactly when [has_network p], and then the whole is the chain
    id read from the network. *)
Lemma chain_id_expr p :
  exists x c,
    and_then p (get p "_network") = Normal x /\
    and_then x (n ← get p "_network"; get n "chainId") = Normal c /\
    truthy x = has_network p /\
    if has_network p
    then exists n, get p "_network" = Normal n /\ get n "chainId" = Normal c
    else truthy c = false.
Proof.
  unfold and_then, has_network.
  destruct (truthy p) eqn:Hp; simpl.
  - destruct (truthy_get_normal p "_network" Hp) as [n Hn]. rewrite Hn. simpl.
    destruct (truthy n) eqn:Htn.
    + destruct (truthy_get_normal n "chainId" Htn) as [c Hc].
      exists n, c. rewrite Htn. repeat split; eauto.
    + exists n, n. rewrite Htn. repeat split; assumption.
  - exists p, p. rewrite Hp. repeat split; assumption.
Qed.

Section Rendering.
Context (L : Imports).

(** A render never throws, and these are the values it computes. *)
Lemma App_normal (s : State) (env : Snapshot L) :
  exists v, App L s env = Normal v /\
    mainnetProvider v =
      (if has_network (scaffoldEthProvider L env)
       then scaffoldEthProvider L env else mainnetInfura L env) /\
    userProvider v = useUserProvider L (hooks L env) (injectedProvider s) /\
    address v = render_address L s env /\
    (if has_network (userProvider v)
     then exists n, get (userProvider v) "_network" = Normal n /\
                    get n "chainId" = Normal (selectedChainId v)
     else truthy (selectedChainId v) = false).
Proof.
  unfold App.
  destruct (chain_id_expr (scaffoldEthProvider L env)) as (x & _ & -> & _ & Hx & _).
  destruct (chain_id_expr (localProvider L env)) as (l & lc & -> & Hlc & _ & _).
  destruct (chain_id_expr (useUserProvider L (hooks L env) (injectedProvider s)))
    as (u & uc & Hu & Huc & _ & Hsel).
  cbn [mbind completion_bind]. rewrite Hlc. cbn [mbind completion_bind].
  rewrite Hu. cbn [mbind completion_bind]. rewrite Huc. cbn [mbind completion_bind mret completion_ret].
  eexists. split; [reflexivity |]. cbn [mainnetProvider userProvider address selectedChainId].
  rewrite Hx. repeat split. exact Hsel.
Qed.

Lemma App_address (s : State) (env : Snapshot L) v :
  App L s env = Normal v -> address v = render_address L s env.
Proof.
  intros H. destruct (App_normal s env) as (v' & H' & _ & _ & Ha & _).
  congruence.
Qed.

(** C9: the mainnet provider a render uses is scaffoldEthProvider when that
    object is truthy and its _network field is truthy, and mainnetInfura in
    every other case; the render computing it never throws. *)
Theorem mainnetProvider_selection (s : State) (env : Snapshot L) :
  exists v, App L s env = Normal v /\
    mainnetProvider v =
      if has_network (scaffoldEthProvider L env)
      then scaffoldEthProvider L env
      else mainnetInfura L env.
Proof.
  destruct (App_normal s env) as (v & Hv & Hm & _). eauto.
Qed.

(** C4: a render takes userProvider from useUserProvider applied to the
    injectedProvider state cell and address from useUserAddress applied to
    that userProvider; selectedChainId is userProvider._network.chainId when
    userProvider and its _network are both truthy, and is falsy otherwise. *)
Theorem address_and_chain_derived (s : State) (env : Snapshot L) :
  exists v, App L s env = Normal v /\
    userProvider v = useUserProvider L (hooks L env) (injectedProvider s) /\
    address v = useUserAddress L (hooks L env) (userProvider v) /\
    if has_network (userProvider v)
    then exists n, get (userProvider v) "_network" = Normal n /\
                   get n "chainId" = Normal (selectedChainId v)
    else truthy (selectedChainId v) = false.
Proof.
  destruct (App_normal s env) as (v & Hv & _ & Hu & Ha & Hc).
  exists v. repeat split; try assumption.
  rewrite Ha, Hu. reflexivity.
Qed.

(** C10: flashMessage.success(m) and flashMessage.error(m) each append one
    entry, with status "success" resp. "error" and text m, after the messages
    already stored, which stay as they were and in the same order; no other
    state cell changes. *)
Theorem flashMessage_appends_one (m : JsVal) (s : State) :
  flashMessages (flashMessage_success m s)
    = flashMessages s ++ [{| status := "success"; text := m |}] /\
  flashMessages (flashMessage_error m s)
    = flashMessages s ++ [{| status := "error"; text := m |}] /\
  take (length (flashMessages s)) (flashMessages (flashMessage_success m s)) = flashMessages s /\
  take (length (flashMessages s)) (flashMessages (flashMessage_error m s)) = flashMessages s /\
  length (flashMessages (flashMessage_success m s)) = S (length (flashMessages s)) /\
  length (flashMessages (flashMessage_error m s)) = S (length (flashMessages s)) /\
  userRole (flashMessage_success m s) = userRole s /\
  userRole (flashMessage_error m s) = userRole s /\
  injectedProvider (flashMessage_success m s) = injectedProvider s /\
  injectedProvider (flashMessage_error m s) = injectedProvider s.
Proof.
  unfold flashMessage_success, flashMessage_error; simpl.
  rewrite !take_app_length, !length_app; simpl.
  repeat split; lia.
Qed.

(** C2, as the module does it: loading instantiates three JSON-RPC
    providers, in this order: one at the constant
    https://rpc.scaffoldeth.io:48544, one at https://mainnet.infura.io/v3/
    followed by INFURA_ID, and one at process.env.REACT_APP_PROVIDER when
    that is truthy and at the target network's rpcUrl otherwise. *)
Theorem module_load_providers (env : LoadEnv) :
  providers (trace (module_load L env)) =
    [ JStr "https://rpc.scaffoldeth.io:48544";
      JStr ("https://mainnet.infura.io/v3/" +:+ INFURA_ID L);
      if truthy (REACT_APP_PROVIDER env)
      then REACT_APP_PROVIDER env
      else rpcUrl (NETWORKS_mainnet L) ].
Proof.
  unfold module_load, providers; simpl.
  destruct (truthy (ethereum env)); reflexivity.
Qed.

End Rendering.

(** C2 as stated fails: with no REACT_APP_PROVIDER the load instantiates
    three providers, not two, and setting the variable changes the URL of
    the third. *)
Lemma module_load_providers_not_two :
  providers (trace (module_load Sample.imports Sample.no_wallet)) =
    [ JStr "https://rpc.scaffoldeth.io:48544";
      JStr "https://mainnet.infura.io/v3/0123456789abcdef";
      JStr "https://mainnet.infura.io/v3/0123456789abcdef" ] /\
  providers (trace (module_load Sample.imports Sample.with_override)) =
    [ JStr "https://rpc.scaffoldeth.io:48544";
      JStr "https://mainnet.infura.io/v3/0123456789abcdef";
      JStr "https://dai.poa.network" ] /\
  ~ (exists u1 u2, forall env,
       providers (trace (module_load Sample.imports env)) = [u1; u2]).
Proof.
  split; [reflexivity |]. split; [reflexivity |].
  intros (u1 & u2 & H). specialize (H Sample.no_wallet). discriminate H.
Qed.

(** ** Properties of the transitions *)

Lemma step_alive (L : Imports) (s s' : State) (e : Event L) :
  step L s e = Some s' -> unloaded s = false.
Proof. unfold step. destruct (unloaded s); [discriminate | reflexivity]. Qed.

(** Splits a transition into the cases of [step] that can produce a state. *)
Ltac step_cases H :=
  let Hal := fresh "Halive" in
  pose proof (step_alive _ _ _ _ H) as Hal;
  unfold step in H; rewrite Hal in H;
  match type of H with
  | match ?e with _ => _ end = Some _ => destruct e
  end;
  repeat match type of H with
  | match ?x with _ => _ end = Some _ => destruct x eqn:?
  | (if ?x then _ else _) = Some _ => destruct x eqn:?
  end;
  try discriminate H;
  injection H as <-.

(** Unfolds the callbacks a transition runs and splits on their tests. *)
Ltac step_split :=
  unfold commit, connect_effect, role_effect, loadWeb3Modal_resume,
    fetchUserData_resume, logoutOfWeb3Modal_resume, on_wallet_event;
  repeat match goal with
  | |- context [if ?b then _ else _] => destruct b eqn:?
  | |- context [match ?x with _ => _ end] => destruct x eqn:?
  end.

Section Transitions.
Context (L : Imports).

(** What every transition preserves holds after every run. *)
Lemma run_invariant (P : State -> Prop) :
  (forall s e s', P s -> step L s e = Some s' -> P s') ->
  forall es s s', P s -> run L s es = Some s' -> P s'.
Proof.
  intros Hstep. induction es as [|e es IH]; intros s s' HP Hrun; simpl in Hrun.
  - congruence.
  - destruct (step L s e) as [s1|] eqn:Hs; simpl in Hrun; [| discriminate].
    eapply IH; [| exact Hrun]. eapply Hstep; eassumption.
Qed.

Lemma step_listening (s s' : State) (e : Event L) :
  step L s e = Some s' -> listening s' = listening s.
Proof.
  intros H. step_cases H;
    unfold commit, connect_effect, role_effect, loadWeb3Modal_resume,
      fetchUserData_resume, logoutOfWeb3Modal_resume, on_wallet_event;
    repeat match goal with
    | |- context [if ?b then _ else _] => destruct b
    | |- context [match ?x with _ => _ end] => destruct x
    end;
    reflexivity.
Qed.

Lemma run_listening (es : list (Event L)) (s s' : State) :
  run L s es = Some s' -> listening s' = listening s.
Proof.
  intros H.
  apply (run_invariant (fun t => listening t = listening s)) with (es := es) (s := s);
    [| reflexivity | exact H].
  intros t e t' Ht Hst. rewrite (step_listening _ _ _ Hst). exact Ht.
Qed.

(** C3, as the component does it: when a pending web3Modal.connect()
    resolves with p and new Web3Provider(p) returns an object, that object
    becomes the injectedProvider cell; when the constructor throws, the cell
    keeps its value.  Either way the other cells stay as they are; calling
    loadWeb3Modal is what leaves such a call pending. *)
Theorem loadWeb3Modal_stores_provider (s : State) (p : JsVal) :
  unloaded s = false ->
  connecting s <> 0%nat ->
  exists s', step L s (ConnectSettled L (Normal p)) = Some s' /\
    match Web3Provider L p with
    | Normal w => injectedProvider s' = w
    | Throw _ => injectedProvider s' = injectedProvider s
    end /\
    userRole s' = userRole s /\
    flashMessages s' = flashMessages s /\
    trace s' = trace s /\
    connecting (loadWeb3Modal s) = S (connecting s) /\
    trace (loadWeb3Modal s) = trace s ++ [Connect].
Proof.
  intros Halive Hpending. unfold step. rewrite Halive.
  destruct (connecting s) as [|n] eqn:Hn; [congruence |].
  eexists. split; [reflexivity |].
  unfold loadWeb3Modal_resume. cbn [mbind completion_bind].
  destruct (Web3Provider L p); repeat split; simpl; rewrite ?Hn; reflexivity.
Qed.

(** C5, as the module does it: on a page loaded with window.ethereum
    present, each chainChanged and accountsChanged event runs a handler
    that, when web3Modal.cachedProvider is truthy, sets a timer of 1 ms
    whose firing reloads the page, and that does nothing when it is falsy. *)
Theorem wallet_event_reloads_when_cached
    (env : LoadEnv) (es : list (Event L)) (s : State) (name : string) (cached : JsVal) :
  truthy (ethereum env) = true ->
  run L (module_load L env) es = Some s ->
  unloaded s = false ->
  name = "chainChanged" \/ name = "accountsChanged" ->
  exists s', step L s (WalletEvent L name cached) = Some s' /\
    if truthy cached
    then trace s' = trace s ++ [SetTimeout 1] /\
         exists s'', step L s' (TimerFired L) = Some s'' /\
           trace s'' = trace s' ++ [Reload] /\ unloaded s'' = true
    else s' = s.
Proof.
  intros Heth Hrun Halive Hname.
  assert (Hin : name ∈ listening s).
  { rewrite (run_listening _ _ _ Hrun). simpl. rewrite Heth.
    destruct Hname as [-> | ->]; set_solver. }
  unfold step at 1. rewrite Halive, (bool_decide_eq_true_2 _ Hin).
  eexists. split; [reflexivity |].
  unfold on_wallet_event. destruct (truthy cached).
  - split; [reflexivity |]. unfold step. simpl. rewrite Halive.
    eexists. split; [reflexivity |]. split; reflexivity.
  - reflexivity.
Qed.

End Transitions.

Lemma loadWeb3Modal_stores_provider_witness :
  exists s',
    step Sample.imports (loadWeb3Modal (module_load Sample.imports Sample.no_wallet))
      (ConnectSettled Sample.imports (Normal Sample.wallet)) = Some s' /\
    injectedProvider s' = JObj 3 {[ "provider" := Sample.wallet ]}.
Proof.
  destruct (loadWeb3Modal_stores_provider Sample.imports
              (loadWeb3Modal (module_load Sample.imports Sample.no_wallet)) Sample.wallet)
    as (s' & Hs & Hi & _).
  - reflexivity.
  - simpl. lia.
  - exists s'. split; [exact Hs | exact Hi].
Defined.

(** C3 as stated fails: connect resolves, once with null and once with an
    object that has none of request, sendAsync and send; the constructor
    throws on both, setInjectedProvider is never reached and
    injectedProvider is still undefined. *)
Lemma refused_provider_is_not_stored :
  (exists s,
     run Sample.imports (module_load Sample.imports Sample.no_wallet)
       [ Commit Sample.imports (Sample.render_with JUndefined);
         Click_loadWeb3Modal Sample.imports;
         ConnectSettled Sample.imports (Normal JNull) ] = Some s /\
     Web3Provider Sample.imports JNull = Throw (JStr "missing provider") /\
     injectedProvider s = JUndefined) /\
  (exists s,
     run Sample.imports (module_load Sample.imports Sample.no_wallet)
       [ Commit Sample.imports (Sample.render_with JUndefined);
         Click_loadWeb3Modal Sample.imports;
         ConnectSettled Sample.imports (Normal (JObj 9 ∅)) ] = Some s /\
     Web3Provider Sample.imports (JObj 9 ∅) = Throw (JStr "unsupported provider") /\
     injectedProvider s = JUndefined).
Proof.
  split; eexists; (split; [reflexivity |]); split; reflexivity.
Qed.

Lemma wallet_event_reloads_when_cached_witness :
  exists s',
    step Sample.imports (module_load Sample.imports Sample.with_wallet)
      (WalletEvent Sample.imports "accountsChanged" (JStr "injected")) = Some s' /\
    trace s' = trace (module_load Sample.imports Sample.with_wallet) ++ [SetTimeout 1].
Proof.
  destruct (wallet_event_reloads_when_cached Sample.imports Sample.with_wallet []
              (module_load Sample.imports Sample.with_wallet) "accountsChanged" (JStr "injected"))
    as (s' & Hs & Ht & _).
  - reflexivity.
  - reflexivity.
  - reflexivity.
  - right. reflexivity.
  - exists s'. split; [exact Hs | exact Ht].
Defined.

(** C5 as stated fails: with no cached provider a chainChanged or
    accountsChanged event leaves the page as it is, no timer is pending and
    no reload has happened. *)
Lemma wallet_event_without_reload :
  step Sample.imports (module_load Sample.imports Sample.with_wallet)
    (WalletEvent Sample.imports "chainChanged" JUndefined)
    = Some (module_load Sample.imports Sample.with_wallet) /\
  step Sample.imports (module_load Sample.imports Sample.with_wallet)
    (WalletEvent Sample.imports "accountsChanged" JUndefined)
    = Some (module_load Sample.imports Sample.with_wallet) /\
  step Sample.imports (module_load Sample.imports Sample.with_wallet)
    (TimerFired Sample.imports) = None /\
  reloads (trace (module_load Sample.imports Sample.with_wallet)) = [].
Proof. repeat split. Qed.

(** ** Properties of the runs *)

Section Runs.
Context (L : Imports).

Lemma requests_snoc (t : list Effect) (a : Effect) :
  requests (t ++ [a]) = requests t ++ match a with Http r => [r] | _ => [] end.
Proof. unfold requests. rewrite omap_app. simpl. destruct a; reflexivity. Qed.

Lemma commit_trace (s : State) (env : Snapshot L) (v : View) :
  address v = render_address L s env ->
  requests (trace (commit L env v s)) = requests (trace s) ++ commit_requests L s env.
Proof.
  intros Ha. unfold commit, commit_requests, connect_effect, role_effect. rewrite Ha.
  destruct (roleDeps s) as [b|]; simpl.
  - destruct (negb (same_value b _)); simpl; [| now rewrite app_nil_r].
    destruct (truthy (render_address L s env)); simpl; [| now rewrite app_nil_r].
    rewrite requests_snoc. reflexivity.
  - destruct (truthy (cachedProvider L env)), (truthy (render_address L s env)); simpl;
      rewrite ?requests_snoc, ?app_nil_r; simpl; rewrite ?app_nil_r; reflexivity.
Qed.

(** Only a commit adds requests to the trace. *)
Lemma step_requests (s s' : State) (e : Event L) :
  step L s e = Some s' ->
  requests (trace s') = requests (trace s) ++
    match e with
    | Commit _ env => commit_requests L s env
    | _ => []
    end.
Proof.
  intros H. step_cases H.
  1: { apply commit_trace. eapply App_address. eassumption. }
  all: unfold loadWeb3Modal_resume, fetchUserData_resume, logoutOfWeb3Modal_resume,
         on_wallet_event;
    repeat match goal with
    | |- context [if ?b then _ else _] => destruct b
    | |- context [match ?x with _ => _ end] => destruct x
    end;
    simpl; rewrite ?requests_snoc, ?app_nil_r; simpl; rewrite ?app_nil_r; reflexivity.
Qed.

(** A settled fetch sets the role from the outcome, in whatever state its
    promise is still pending. *)
Lemma fetch_settled (t : State) (i : nat) (outcome : Completion JsVal) :
  unloaded t = false ->
  i ∈ fetching t ->
  exists t', step L t (FetchSettled L i outcome) = Some t' /\
    userRole t' =
      match outcome ≫= classify with
      | Normal role => role
      | Throw _ => USER_ROLES.anonymous
      end.
Proof.
  intros Halive Hin. unfold step. rewrite Halive, (bool_decide_eq_true_2 _ Hin).
  eexists. split; [reflexivity |].
  unfold fetchUserData_resume. destruct (outcome ≫= classify); reflexivity.
Qed.

Lemma classify_isAdmin (response : JsVal) :
  classify response =
    match isAdmin_of response with
    | Normal isAdmin =>
        Normal (if truthy isAdmin then USER_ROLES.admin else USER_ROLES.registered)
    | Throw e => Throw e
    end.
Proof.
  unfold classify, isAdmin_of.
  destruct (get response "data") as [d|]; simpl; [| reflexivity].
  destruct (get d "isAdmin"); reflexivity.
Qed.

(** C1, as the component does it: at the first commit and at every commit
    whose address differs from the one before, a truthy address a makes the
    App issue a GET to serverUrl + "/user" with params { address: a }.  When
    that request resolves, userRole becomes the administrator role if the
    response's data.isAdmin is truthy and the registered role if it is
    falsy; when data.isAdmin cannot be read, because the response or its
    data is null or undefined, the read throws inside the try block and
    userRole becomes the anonymous role. *)
Theorem role_fetch_classifies (s : State) (env : Snapshot L) :
  unloaded s = false ->
  deps_changed (roleDeps s) (render_address L s env) = true ->
  truthy (render_address L s env) = true ->
  exists s1, step L s (Commit L env) = Some s1 /\
    requests (trace s1) = requests (trace s) ++ [user_request L (render_address L s env)] /\
    nextFetch s ∈ fetching s1 /\
    forall (t : State) (response : JsVal),
      unloaded t = false ->
      nextFetch s ∈ fetching t ->
      exists t', step L t (FetchSettled L (nextFetch s) (Normal response)) = Some t' /\
        match isAdmin_of response with
        | Normal isAdmin =>
            userRole t' = (if truthy isAdmin then USER_ROLES.admin else USER_ROLES.registered) /\
            (userRole t' = USER_ROLES.admin <-> truthy isAdmin = true)
        | Throw _ => userRole t' = USER_ROLES.anonymous
        end.
Proof.
  intros Halive Hdeps Haddr.
  destruct (App_normal L s env) as (v & Hv & _ & _ & Ha & _).
  exists (commit L env v s). split; [| split; [| split]].
  - unfold step. rewrite Halive, Hv. reflexivity.
  - rewrite (commit_trace s env v Ha). unfold commit_requests.
    rewrite Hdeps, Haddr. reflexivity.
  - unfold commit, role_effect. rewrite Ha, Hdeps, Haddr.
    unfold connect_effect.
    destruct (roleDeps s); [| destruct (truthy (cachedProvider L env))];
      simpl; apply list_elem_of_here.
  - intros t response Ht Hin.
    destruct (fetch_settled t (nextFetch s) (Normal response) Ht Hin) as (t' & Hstep & Hrole).
    exists t'. split; [exact Hstep |].
    cbn [mbind completion_bind] in Hrole. rewrite classify_isAdmin in Hrole.
    destruct (isAdmin_of response) as [a|]; [| exact Hrole].
    split; [exact Hrole |]. rewrite Hrole.
    destruct (truthy a); split; intros H; try reflexivity; discriminate H.
Qed.

End Runs.

Lemma role_fetch_classifies_witness :
  exists s1,
    step Sample.imports (module_load Sample.imports Sample.no_wallet)
      (Commit Sample.imports (Sample.render_with (JStr "0xA"))) = Some s1 /\
    requests (trace s1) = [user_request Sample.imports (JStr "0xA")].
Proof.
  destruct (role_fetch_classifies Sample.imports
              (module_load Sample.imports Sample.no_wallet)
              (Sample.render_with (JStr "0xA")))
    as (s1 & Hs & Hr & _).
  - reflexivity.
  - reflexivity.
  - reflexivity.
  - exists s1. split; [exact Hs | exact Hr].
Defined.

(** C1 as stated fails: the address is non-empty and the request resolves,
    with a response whose data is null; its isAdmin is not truthy, yet
    userRole does not become the registered role: reading isAdmin throws
    and the catch block sets the anonymous role. *)
Lemma null_data_is_not_registered :
  exists s,
    run Sample.imports (module_load Sample.imports Sample.no_wallet)
      [ Commit Sample.imports (Sample.render_with (JStr "0xA"));
        FetchSettled Sample.imports 0 (Normal (JObj 9 {[ "data" := JNull ]})) ] = Some s /\
    requests (trace s) = [user_request Sample.imports (JStr "0xA")] /\
    isAdmin_of (JObj 9 {[ "data" := JNull ]}) = Throw TypeError /\
    userRole s = USER_ROLES.anonymous /\
    userRole s <> USER_ROLES.registered /\
    userRole s <> USER_ROLES.admin.
Proof.
  eexists. split; [reflexivity |].
  repeat split; discriminate.
Qed.

Section Invariants.
Context (L : Imports).

Lemma commit_requests_get_user (s : State) (env : Snapshot L) :
  Forall (get_user L) (commit_requests L s env) /\ (length (commit_requests L s env) <= 1)%nat.
Proof.
  unfold commit_requests.
  destruct (deps_changed _ _); simpl; [| split; [constructor | lia]].
  destruct (truthy (render_address L s env)) eqn:Ha; simpl; [| split; [constructor | lia]].
  split; [| lia]. constructor; [| constructor].
  repeat split. exists (render_address L s env). split; [exact Ha | reflexivity].
Qed.

(** C6: in every run of the page, every HTTP request the module has made is
    a GET to serverUrl + "/user" without a body whose only query parameter
    is a truthy address, and one transition adds at most one request. *)
Theorem only_request_is_get_user (env : LoadEnv) (es : list (Event L)) (s : State) :
  run L (module_load L env) es = Some s ->
  Forall (fun r => method r = GET /\ url r = serverUrl L +:+ "/user" /\ body r = None /\
                   exists a, truthy a = true /\ params r = {[ "address" := a ]})
         (requests (trace s)) /\
  forall e s', step L s e = Some s' ->
    exists rs, requests (trace s') = requests (trace s) ++ rs /\ (length rs <= 1)%nat.
Proof.
  intros Hrun. split.
  - apply (run_invariant L (fun t => Forall (get_user L) (requests (trace t))))
      with (es := es) (s := module_load L env); [| | exact Hrun].
    + intros t e t' Ht Hstep. rewrite (step_requests L _ _ _ Hstep).
      apply Forall_app. split; [exact Ht |].
      destruct e; try constructor. apply commit_requests_get_user.
    + unfold module_load, requests; simpl. destruct (truthy (ethereum env)); constructor.
  - intros e s' Hstep. rewrite (step_requests L _ _ _ Hstep).
    eexists. split; [reflexivity |].
    destruct e; simpl; try lia. apply commit_requests_get_user.
Qed.


(** The role after a transition: what Header passed, what the settled fetch
    gave, and the role before in every other case. *)
Lemma step_userRole (s s' : State) (e : Event L) :
  step L s e = Some s' ->
  userRole s' =
    match e with
    | Header_setUserRole _ role => role
    | FetchSettled _ _ outcome => role_of outcome
    | _ => userRole s
    end.
Proof.
  intros H. step_cases H; unfold role_of; step_split; reflexivity.
Qed.





End Invariants.

Section Asynchrony.
Context (L : Imports).

(** A pending fetch stays pending through every transition but its own
    settling. *)
Lemma step_keeps_fetch (s s' : State) (e : Event L) (i : nat) :
  step L s e = Some s' ->
  i ∈ fetching s ->
  (forall outcome, e <> FetchSettled L i outcome) ->
  i ∈ fetching s'.
Proof.
  intros H Hin Hne. step_cases H;
    unfold commit, connect_effect, role_effect, loadWeb3Modal_resume,
      logoutOfWeb3Modal_resume, on_wallet_event;
    try (repeat match goal with
         | |- context [if ?b then _ else _] => destruct b
         | |- context [match ?x with _ => _ end] => destruct x
         end; simpl; try apply list_elem_of_further; exact Hin).
  unfold fetchUserData_resume. destruct (_ ≫= classify); simpl;
    apply list_elem_of_filter; (split; [| exact Hin]);
    intros ->; eapply Hne; reflexivity.
Qed.

(** A pending connect stays pending through every transition but its own
    settling. *)
Lemma step_keeps_connect (s s' : State) (e : Event L) :
  step L s e = Some s' ->
  (forall outcome, e <> ConnectSettled L outcome) ->
  (connecting s <= connecting s')%nat.
Proof.
  intros H Hne. step_cases H;
    unfold commit, connect_effect, role_effect, fetchUserData_resume,
      logoutOfWeb3Modal_resume, on_wallet_event;
    try (repeat match goal with
         | |- context [if ?b then _ else _] => destruct b
         | |- context [match ?x with _ => _ end] => destruct x
         end; simpl; lia).
  exfalso. eapply Hne. reflexivity.
Qed.

(** A pending connect and a pending fetch may settle in either order, with
    the same result. *)
Lemma connect_fetch_commute (s : State) (i : nat) (o1 o2 : Completion JsVal) :
  unloaded s = false ->
  connecting s <> 0%nat ->
  i ∈ fetching s ->
  exists t,
    (u ← step L s (ConnectSettled L o1); step L u (FetchSettled L i o2)) = Some t /\
    (u ← step L s (FetchSettled L i o2); step L u (ConnectSettled L o1)) = Some t.
Proof.
  intros Halive Hc Hin. unfold step. rewrite Halive.
  destruct (connecting s) as [|n] eqn:Hn; [congruence |].
  rewrite (bool_decide_eq_true_2 _ Hin). cbn [mbind option_bind].
  unfold loadWeb3Modal_resume, fetchUserData_resume.
  destruct (o1 ≫= Web3Provider L) as [w|], (o2 ≫= classify) as [r|]; simpl;
    rewrite Halive, ?Hn, (bool_decide_eq_true_2 _ Hin);
    eexists; split; reflexivity.
Qed.

(** After the load a transition only adds actions of the page. *)
Lemma step_page_actions (s s' : State) (e : Event L) :
  step L s e = Some s' ->
  exists l, trace s' = trace s ++ l /\ Forall (page_action L) l.
Proof.
  intros H. step_cases H; step_split; simpl;
    first
      [ exists []; split; [now rewrite app_nil_r | constructor]
      | eexists [_]; split; [reflexivity |];
        repeat constructor; simpl; eexists; reflexivity
      | eexists [_; _]; split; [now rewrite <- app_assoc |];
        repeat constructor; simpl; eexists; reflexivity ].
Qed.

Lemma run_page_actions (es : list (Event L)) (s s' : State) :
  run L s es = Some s' ->
  exists l, trace s' = trace s ++ l /\ Forall (page_action L) l.
Proof.
  revert s. induction es as [|e es IH]; intros s Hrun; simpl in Hrun.
  - injection Hrun as <-. exists []. split; [now rewrite app_nil_r | constructor].
  - destruct (step L s e) as [s1|] eqn:Hstep; simpl in Hrun; [| discriminate].
    destruct (step_page_actions _ _ _ Hstep) as (l1 & Ht1 & Hl1).
    destruct (IH s1 Hrun) as (l & Ht & Hl).
    exists (l1 ++ l). split; [now rewrite Ht, Ht1, app_assoc |].
    apply Forall_app. split; assumption.
Qed.

(** C7, as the module does it: after the load all the page does is start
    asynchronous calls of four kinds, the wallet connect, the role GET, the
    clearCachedProvider call that logoutOfWeb3Modal awaits and reload timers
    of 1 ms, and reload when such a timer fires.  A role fetch is issued at
    the first commit and at every commit whose address differs from the one
    before, when that address is truthy, and at no other moment; so a run
    may issue several.  Neither the connect nor the fetch is cancelled: it
    stays pending until it settles.  No order is enforced between them: a
    pending connect and a pending fetch may settle in either order, with
    the same result. *)
Theorem async_calls_fire_and_forget :
  (forall (env : LoadEnv) (es : list (Event L)) (s : State),
     run L (module_load L env) es = Some s ->
     exists l, trace s = trace (module_load L env) ++ l /\ Forall (page_action L) l) /\
  (forall (s s' : State) (e : Event L),
     step L s e = Some s' ->
     requests (trace s') = requests (trace s) ++
       match e with
       | Commit _ env =>
           if deps_changed (roleDeps s) (render_address L s env)
              && truthy (render_address L s env)
           then [user_request L (render_address L s env)]
           else []
       | _ => []
       end) /\
  (forall (s s' : State) (e : Event L) (i : nat),
     step L s e = Some s' ->
     i ∈ fetching s ->
     (forall outcome, e <> FetchSettled L i outcome) ->
     i ∈ fetching s') /\
  (forall (s s' : State) (e : Event L),
     step L s e = Some s' ->
     (forall outcome, e <> ConnectSettled L outcome) ->
     (connecting s <= connecting s')%nat) /\
  (forall (s : State) (i : nat) (o1 o2 : Completion JsVal),
     unloaded s = false ->
     connecting s <> 0%nat ->
     i ∈ fetching s ->
     exists t,
       (u ← step L s (ConnectSettled L o1); step L u (FetchSettled L i o2)) = Some t /\
       (u ← step L s (FetchSettled L i o2); step L u (ConnectSettled L o1)) = Some t).
Proof.
  split; [| split; [| split; [| split]]].
  - intros env es s. apply run_page_actions.
  - intros s s' e H. rewrite (step_requests L _ _ _ H). destruct e; reflexivity.
  - apply step_keeps_fetch.
  - apply step_keeps_connect.
  - apply connect_fetch_commute.
Qed.

End Asynchrony.

(** ** The statements at a concrete page *)

Lemma only_request_is_get_user_witness :
  exists s,
    run Sample.imports (module_load Sample.imports Sample.with_wallet)
      [ Commit Sample.imports (Sample.render_with (JStr "0xA"));
        FetchSettled Sample.imports 0 (Throw (JStr "Network Error")) ] = Some s /\
    Forall (fun r => method r = GET /\ url r = "http://localhost:49832/user" /\
                     body r = None /\
                     exists a, truthy a = true /\ params r = {[ "address" := a ]})
           (requests (trace s)).
Proof.
  eexists. split; [reflexivity |].
  apply (only_request_is_get_user Sample.imports Sample.with_wallet
           [ Commit Sample.imports (Sample.render_with (JStr "0xA"));
             FetchSettled Sample.imports 0 (Throw (JStr "Network Error")) ]).
  reflexivity.
Defined.



Lemma async_calls_fire_and_forget_witness :
  exists t,
    (u ← step Sample.imports
           (loadWeb3Modal (fetchUserData Sample.imports (JStr "0xA")
              (module_load Sample.imports Sample.no_wallet)))
           (ConnectSettled Sample.imports (Normal Sample.wallet));
     step Sample.imports u (FetchSettled Sample.imports 0 (Throw JNull))) = Some t /\
    (u ← step Sample.imports
           (loadWeb3Modal (fetchUserData Sample.imports (JStr "0xA")
              (module_load Sample.imports Sample.no_wallet)))
           (FetchSettled Sample.imports 0 (Throw JNull));
     step Sample.imports u (ConnectSettled Sample.imports (Normal Sample.wallet))) = Some t.
Proof.
  destruct (async_calls_fire_and_forget Sample.imports) as (_ & _ & _ & _ & Hcommute).
  apply Hcommute.
  - reflexivity.
  - simpl. lia.
  - simpl. apply list_elem_of_here.
Defined.

(** C7 as stated fails, twice.  The user first gets the burner account and
    then connects a wallet: the address changes from one truthy value to
    another and the run issues two role fetches.  And a logout awaits
    clearCachedProvider and then sets a timer: asynchronous activity that is
    neither the connect call nor the fetch. *)
Lemma two_fetches_and_a_logout_timer :
  (exists s,
     run Sample.imports (module_load Sample.imports Sample.no_wallet)
       [ Commit Sample.imports (Sample.render_with (JStr "0xBurner"));
         Click_loadWeb3Modal Sample.imports;
         ConnectSettled Sample.imports (Normal Sample.wallet);
         Commit Sample.imports (Sample.render_with (JStr "0xWallet")) ] = Some s /\
     requests (trace s) =
       [ user_request Sample.imports (JStr "0xBurner");
         user_request Sample.imports (JStr "0xWallet") ] /\
     ~ (length (requests (trace s)) <= 1)%nat) /\
  (exists s,
     run Sample.imports (module_load Sample.imports Sample.no_wallet)
       [ Commit Sample.imports (Sample.render_with JUndefined);
         Click_logoutOfWeb3Modal Sample.imports;
         ClearSettled Sample.imports (Normal JUndefined) ] = Some s /\
     trace s = trace (module_load Sample.imports Sample.no_wallet)
               ++ [ClearCachedProvider; SetTimeout 1] /\
     timers s = 1%nat /\
     connects (trace s) = [] /\
     requests (trace s) = []).
Proof.
  split.
  - eexists. split; [reflexivity |]. split; [reflexivity |].
    intros H. vm_compute in H. lia.
  - eexists. split; [reflexivity |]. repeat split.
Qed.

(** ** Further properties of the module *)

Section Further.
Context (L : Imports).

(** logoutOfWeb3Modal first clears the cached provider; the reload timer of
    1 ms is set only once that call has returned, and its firing reloads the
    page; when the call throws, no timer is set and nothing else happens. *)
Theorem logout_clears_then_reloads (s : State) :
  unloaded s = false ->
  mounted s = true ->
  exists s1, step L s (Click_logoutOfWeb3Modal L) = Some s1 /\
    trace s1 = trace s ++ [ClearCachedProvider] /\
    timers s1 = timers s /\
    (forall v : JsVal, exists s2 s3,
       step L s1 (ClearSettled L (Normal v)) = Some s2 /\
       trace s2 = trace s1 ++ [SetTimeout 1] /\
       step L s2 (TimerFired L) = Some s3 /\
       trace s3 = trace s2 ++ [Reload] /\
       unloaded s3 = true) /\
    (forall err : JsVal, exists s2,
       step L s1 (ClearSettled L (Throw err)) = Some s2 /\
       trace s2 = trace s1 /\
       timers s2 = timers s).
Proof.
  intros Halive Hm. unfold step at 1. rewrite Halive, Hm.
  eexists. split; [reflexivity |]. split; [reflexivity |]. split; [reflexivity |].
  split.
  - intros v. eexists. eexists.
    split; [unfold step; simpl; rewrite Halive; reflexivity |].
    split; [reflexivity |].
    split; [unfold step; simpl; rewrite Halive; reflexivity |].
    split; reflexivity.
  - intros err. eexists.
    split; [unfold step; simpl; rewrite Halive; reflexivity |].
    split; reflexivity.
Qed.

(** localChainId is localProvider._network.chainId when localProvider and
    its _network are truthy and a falsy value otherwise; computing it never
    throws, also before the provider has detected its network. *)
Theorem localChainId_derived (s : State) (env : Snapshot L) :
  exists v, App L s env = Normal v /\
    if has_network (localProvider L env)
    then exists n, get (localProvider L env) "_network" = Normal n /\
                   get n "chainId" = Normal (localChainId v)
    else truthy (localChainId v) = false.
Proof.
  unfold App.
  destruct (chain_id_expr (scaffoldEthProvider L env)) as (x & _ & -> & _ & _ & _).
  destruct (chain_id_expr (localProvider L env)) as (l & lc & -> & Hlc & _ & Hloc).
  destruct (chain_id_expr (useUserProvider L (hooks L env) (injectedProvider s)))
    as (u & uc & Hu & Huc & _ & _).
  cbn [mbind completion_bind]. rewrite Hlc. cbn [mbind completion_bind].
  rewrite Hu. cbn [mbind completion_bind]. rewrite Huc.
  cbn [mbind completion_bind mret completion_ret].
  eexists. split; [reflexivity |]. exact Hloc.
Qed.

(** A commit whose address is the one of the commit before (by Object.is)
    does nothing: no request, no connect, no change of a state cell. *)
Theorem same_address_commit_is_idle (s : State) (a : JsVal) (env : Snapshot L) :
  unloaded s = false ->
  roleDeps s = Some a ->
  same_value a (render_address L s env) = true ->
  exists s', step L s (Commit L env) = Some s' /\
    trace s' = trace s /\
    fetching s' = fetching s /\
    connecting s' = connecting s /\
    userRole s' = userRole s /\
    injectedProvider s' = injectedProvider s /\
    flashMessages s' = flashMessages s.
Proof.
  intros Halive Hdeps Hsame.
  destruct (App_normal L s env) as (v & Hv & _ & _ & Ha & _).
  unfold step. rewrite Halive, Hv. eexists. split; [reflexivity |].
  unfold commit, deps_changed. rewrite Hdeps, Ha, Hsame. simpl.
  repeat split.
Qed.

(** Of two pending role fetches the one that settles last decides userRole,
    whichever was issued first: nothing ties a response to the current
    address. *)
Theorem last_settled_fetch_decides
    (s : State) (i j : nat) (o1 o2 : Completion JsVal) :
  unloaded s = false ->
  i ∈ fetching s ->
  j ∈ fetching s ->
  i <> j ->
  exists t,
    (u ← step L s (FetchSettled L i o1); step L u (FetchSettled L j o2)) = Some t /\
    userRole t = role_of o2.
Proof.
  intros Halive Hi Hj Hne.
  destruct (fetch_settled L s i o1 Halive Hi) as (u & Hu & _).
  rewrite Hu. cbn [mbind option_bind].
  assert (Hualive : unloaded u = false).
  { revert Hu. unfold step. rewrite Halive, (bool_decide_eq_true_2 _ Hi).
    intros [= <-]. unfold fetchUserData_resume. destruct (_ ≫= classify); exact Halive. }
  assert (Hju : j ∈ fetching u).
  { eapply (step_keeps_fetch L s u (FetchSettled L i o1) j Hu Hj).
    intros o [= Heq _]. congruence. }
  destruct (fetch_settled L u j o2 Hualive Hju) as (t & Ht & Hrole).
  exists t. split; [exact Ht | exact Hrole].
Qed.

End Further.

Section FurtherRuns.
Context (L : Imports).

Lemma step_flashMessages (s s' : State) (e : Event L) :
  step L s e = Some s' ->
  flashMessages s' = flashMessages s ++ omap (flash_of L) [e].
Proof.
  intros H. step_cases H; step_split; simpl; rewrite ?app_nil_r; reflexivity.
Qed.

(** The stored flash messages are the flash calls made so far, each with
    its status and text, in the order of the calls: the module never drops,
    reorders or rewrites one. *)
Theorem flashMessages_are_the_calls (env : LoadEnv) (es : list (Event L)) (s : State) :
  run L (module_load L env) es = Some s ->
  flashMessages s = omap (flash_of L) es.
Proof.
  change (omap (flash_of L) es)
    with (flashMessages (module_load L env) ++ omap (flash_of L) es).
  generalize (module_load L env) as s0.
  induction es as [|e es IH]; intros s0 Hrun; simpl in Hrun.
  - injection Hrun as <-. simpl. now rewrite app_nil_r.
  - destruct (step L s0 e) as [s1|] eqn:Hstep; simpl in Hrun; [| discriminate].
    rewrite (IH s1 Hrun), (step_flashMessages _ _ _ Hstep), <- app_assoc.
    f_equal. change (e :: es) with ([e] ++ es). now rewrite omap_app.
Qed.

(** userRole is written only when a role fetch settles or when Header calls
    the setUserRole prop it is handed, and flashMessages only by a flash
    call: commits (also one at which the address has become falsy),
    connecting a wallet, logging out and wallet events leave both as they
    are. *)
Theorem cells_written_by_their_event (s s' : State) (e : Event L) :
  step L s e = Some s' ->
  (writes_userRole L e = false -> userRole s' = userRole s) /\
  (is_flash L e = false -> flashMessages s' = flashMessages s).
Proof.
  intros H. split; intros He.
  - rewrite (step_userRole L _ _ _ H). destruct e; try discriminate He; reflexivity.
  - rewrite (step_flashMessages _ _ _ H).
    destruct e; try discriminate He; simpl; now rewrite app_nil_r.
Qed.

Lemma run_injectedProvider (es : list (Event L)) (s0 s : State) :
  run L s0 es = Some s ->
  injectedProvider s = injectedProvider s0 \/
  exists p, ConnectSettled L (Normal p) ∈ es /\
            Web3Provider L p = Normal (injectedProvider s).
Proof.
  revert s0. induction es as [|e es IH]; intros s0 Hrun; simpl in Hrun.
  - injection Hrun as <-. now left.
  - destruct (step L s0 e) as [s1|] eqn:Hstep; simpl in Hrun; [| discriminate].
    destruct (IH s1 Hrun) as [Heq | (p & Hin & Hp)].
    + rewrite Heq. clear IH Hrun Heq.
      step_cases Hstep; try (step_split; simpl; now left).
      unfold loadWeb3Modal_resume.
      match goal with
      | |- context [?o ≫= Web3Provider L] => destruct o as [p|]
      end; cbn [mbind completion_bind]; [| now left].
      destruct (Web3Provider L p) as [w|] eqn:Hw; [| now left].
      right. exists p. split; [apply list_elem_of_here | exact Hw].
    + right. exists p. split; [now apply list_elem_of_further | exact Hp].
Qed.

(** In every run injectedProvider is undefined, as at the start, or the
    Web3Provider built from a value with which a connect call of this run
    resolved; a rejected connect (the user closing the modal) leaves it as
    it was. *)
Theorem injectedProvider_from_connect (env : LoadEnv) (es : list (Event L)) (s : State) :
  run L (module_load L env) es = Some s ->
  (injectedProvider s = JUndefined \/
   exists p, ConnectSettled L (Normal p) ∈ es /\
             Web3Provider L p = Normal (injectedProvider s)) /\
  forall (err : JsVal) (s' : State),
    step L s (ConnectSettled L (Throw err)) = Some s' ->
    injectedProvider s' = injectedProvider s /\ trace s' = trace s.
Proof.
  intros Hrun. split.
  - exact (run_injectedProvider es _ s Hrun).
  - intros err s' H. step_cases H. split; reflexivity.
Qed.

Lemma step_module_objects (s s' : State) (e : Event L) :
  step L s e = Some s' ->
  providers (trace s') = providers (trace s) /\
  registrations (trace s') = registrations (trace s).
Proof.
  intros H. unfold providers, registrations.
  step_cases H; step_split; simpl; rewrite ?omap_app; simpl; rewrite ?app_nil_r;
    split; reflexivity.
Qed.

(** The providers and the wallet handlers belong to the module, not to the
    component: in every run the providers instantiated are the three of the
    load, and the handlers registered are those for chainChanged and
    accountsChanged when window.ethereum was there at load and none
    otherwise; no render or event adds one. *)
Theorem module_objects_created_once (env : LoadEnv) (es : list (Event L)) (s : State) :
  run L (module_load L env) es = Some s ->
  providers (trace s) =
    [scaffoldEthProviderUrl; mainnetInfuraUrl L; localProviderUrlFromEnv L env] /\
  registrations (trace s) =
    (if truthy (ethereum env) then ["chainChanged"; "accountsChanged"] else []) /\
  listening s = registrations (trace s).
Proof.
  intros Hrun.
  assert (H0 : providers (trace (module_load L env)) =
                 [scaffoldEthProviderUrl; mainnetInfuraUrl L; localProviderUrlFromEnv L env] /\
               registrations (trace (module_load L env)) =
                 (if truthy (ethereum env) then ["chainChanged"; "accountsChanged"] else [])).
  { unfold module_load, providers, registrations; simpl.
    destruct (truthy (ethereum env)); split; reflexivity. }
  assert (H : providers (trace s) = providers (trace (module_load L env)) /\
              registrations (trace s) = registrations (trace (module_load L env))).
  { apply (run_invariant L (fun t =>
        providers (trace t) = providers (trace (module_load L env)) /\
        registrations (trace t) = registrations (trace (module_load L env))))
      with (es := es) (s := module_load L env); [| split; reflexivity | exact Hrun].
    intros t e t' [Hp Hr] Hstep.
    destruct (step_module_objects _ _ _ Hstep) as [Hp' Hr'].
    rewrite Hp', Hr'. split; assumption. }
  destruct H as [Hp Hr], H0 as [Hp0 Hr0].
  rewrite Hp, Hr, Hp0, Hr0, (run_listening L _ _ _ Hrun).
  repeat split.
Qed.

End FurtherRuns.

Section Connecting.
Context (L : Imports).

Lemma step_connect_budget (s s' : State) (e : Event L) :
  step L s e = Some s' ->
  (connect_budget s' <= connect_budget s + length (clicks L [e]))%nat.
Proof.
  intros H. unfold connect_budget, connects, mounted.
  step_cases H; step_split; simpl in *; rewrite ?omap_app; simpl;
    rewrite ?length_app; simpl; try lia; unfold mounted in *; congruence.
Qed.

Lemma run_connect_budget (es : list (Event L)) (s s' : State) :
  run L s es = Some s' ->
  (connect_budget s' <= connect_budget s + length (clicks L es))%nat.
Proof.
  revert s. induction es as [|e es IH]; intros s Hrun; simpl in Hrun.
  - injection Hrun as <-. simpl. lia.
  - destruct (step L s e) as [s1|] eqn:Hstep; simpl in Hrun; [| discriminate].
    pose proof (IH s1 Hrun) as H1.
    pose proof (step_connect_budget _ _ _ Hstep) as H2.
    change (e :: es) with ([e] ++ es). unfold clicks in *.
    rewrite omap_app, length_app. lia.
Qed.

(** The connect calls one transition makes. *)
Lemma step_connects (s s' : State) (e : Event L) :
  step L s e = Some s' ->
  connects (trace s') = connects (trace s) ++
    match e with
    | Commit _ snap =>
        if mounted s then []
        else if truthy (cachedProvider L snap) then [()] else []
    | Click_loadWeb3Modal _ => [()]
    | _ => []
    end.
Proof.
  intros H. unfold connects, mounted.
  step_cases H; step_split; simpl; rewrite ?omap_app; simpl;
    rewrite ?app_nil_r; try reflexivity; unfold mounted in *; congruence.
Qed.

(** On its own the App opens the wallet modal at most once per page load:
    the first commit makes a connect call exactly when
    web3Modal.cachedProvider is truthy then, a later commit makes none
    whatever cachedProvider has become, and apart from commits only a call
    of the loadWeb3Modal prop makes one.  So a run makes at most one connect
    call more than there were calls of that prop. *)
Theorem connect_on_its_own_at_most_once
    (env : LoadEnv) (es : list (Event L)) (s : State) :
  run L (module_load L env) es = Some s ->
  (length (connects (trace s)) <= 1 + length (clicks L es))%nat /\
  (forall (e : Event L) (s' : State),
     step L s e = Some s' ->
     connects (trace s') = connects (trace s) ++
       match e with
       | Commit _ snap =>
           if mounted s then []
           else if truthy (cachedProvider L snap) then [()] else []
       | Click_loadWeb3Modal _ => [()]
       | _ => []
       end) /\
  forall (snap : Snapshot L) (s' : State),
    mounted s = true ->
    step L s (Commit L snap) = Some s' ->
    connects (trace s') = connects (trace s) /\ connecting s' = connecting s.
Proof.
  intros Hrun. split; [| split].
  - pose proof (run_connect_budget es _ s Hrun) as H.
    unfold connect_budget in H at 2. simpl in H.
    unfold connect_budget in H. destruct (truthy (ethereum env)); simpl in H; lia.
  - intros e s'. apply step_connects.
  - intros snap s' Hm H. unfold mounted in Hm. unfold connects.
    step_cases H. unfold commit.
    destruct (roleDeps s); [| discriminate Hm].
    unfold role_effect.
    repeat match goal with
    | |- context [if ?b then _ else _] => destruct b
    end; simpl; rewrite ?omap_app; simpl; rewrite ?app_nil_r; split; reflexivity.
Qed.

Lemma step_never_asked (s s' : State) (e : Event L) :
  never_asked s ->
  asks_reload L e = false ->
  step L s e = Some s' ->
  never_asked s'.
Proof.
  unfold never_asked, reloads, timeouts.
  intros (Ht & Hc & Hu & Hr & Hto) He H.
  step_cases H; simpl in He; try discriminate He; try congruence;
    step_split; simpl; rewrite ?omap_app, ?Hr, ?Hto; simpl;
    try (repeat split; assumption); congruence.
Qed.

(** The page reloads only on request: in a run without a logout call and
    without a wallet event that finds a cached provider, no timer is set,
    the page is not reloaded and stays loaded. *)
Theorem no_reload_unless_asked (env : LoadEnv) (es : list (Event L)) (s : State) :
  Forall (fun e => asks_reload L e = false) es ->
  run L (module_load L env) es = Some s ->
  reloads (trace s) = [] /\ timeouts (trace s) = [] /\ unloaded s = false.
Proof.
  intros Hes Hrun.
  assert (H0 : never_asked (module_load L env)).
  { unfold never_asked, reloads, timeouts, module_load; simpl.
    destruct (truthy (ethereum env)); repeat split. }
  revert Hes Hrun H0. generalize (module_load L env) as s0.
  induction es as [|e es IH]; intros s0 Hes Hrun H0; simpl in Hrun.
  - injection Hrun as <-. destruct H0 as (_ & _ & Hu & Hr & Hto). auto.
  - destruct (step L s0 e) as [s1|] eqn:Hstep; simpl in Hrun; [| discriminate].
    apply Forall_cons in Hes as [He Hes].
    apply (IH s1 Hes Hrun). eapply step_never_asked; eassumption.
Qed.

End Connecting.

(** ** The further properties at a concrete page *)

Lemma logout_clears_then_reloads_witness :
  exists s1,
    step Sample.imports
      (set_roleDeps (Some (JStr "0xA")) (module_load Sample.imports Sample.no_wallet))
      (Click_logoutOfWeb3Modal Sample.imports) = Some s1 /\
    trace s1 =
      trace (set_roleDeps (Some (JStr "0xA")) (module_load Sample.imports Sample.no_wallet))
      ++ [ClearCachedProvider].
Proof.
  destruct (logout_clears_then_reloads Sample.imports
              (set_roleDeps (Some (JStr "0xA")) (module_load Sample.imports Sample.no_wallet)))
    as (s1 & Hs & Ht & _).
  - reflexivity.
  - reflexivity.
  - exists s1. split; [exact Hs | exact Ht].
Defined.

Lemma same_address_commit_is_idle_witness :
  exists s',
    step Sample.imports
      (set_roleDeps (Some (JStr "0xA")) (module_load Sample.imports Sample.no_wallet))
      (Commit Sample.imports (Sample.render_with (JStr "0xA"))) = Some s' /\
    trace s' = trace (module_load Sample.imports Sample.no_wallet).
Proof.
  destruct (same_address_commit_is_idle Sample.imports
              (set_roleDeps (Some (JStr "0xA")) (module_load Sample.imports Sample.no_wallet))
              (JStr "0xA") (Sample.render_with (JStr "0xA")))
    as (s' & Hs & Ht & _).
  - reflexivity.
  - reflexivity.
  - reflexivity.
  - exists s'. split; [exact Hs | exact Ht].
Defined.

(** The fetch for the newer address answers first, with an administrator;
    the fetch for the older address answers afterwards, without one: the
    role left is registered. *)
Lemma last_settled_fetch_decides_witness :
  exists t,
    (u ← step Sample.imports
           (fetchUserData Sample.imports (JStr "0xB")
              (fetchUserData Sample.imports (JStr "0xA")
                 (module_load Sample.imports Sample.no_wallet)))
           (FetchSettled Sample.imports 1
              (Normal (JObj 9 {[ "data" := JObj 10 {[ "isAdmin" := JBool true ]} ]})));
     step Sample.imports u
       (FetchSettled Sample.imports 0
          (Normal (JObj 11 {[ "data" := JObj 12 {[ "isAdmin" := JBool false ]} ]}))))
      = Some t /\
    userRole t = USER_ROLES.registered.
Proof.
  destruct (last_settled_fetch_decides Sample.imports
           (fetchUserData Sample.imports (JStr "0xB")
              (fetchUserData Sample.imports (JStr "0xA")
                 (module_load Sample.imports Sample.no_wallet)))
           1%nat 0%nat
           (Normal (JObj 9 {[ "data" := JObj 10 {[ "isAdmin" := JBool true ]} ]}))
           (Normal (JObj 11 {[ "data" := JObj 12 {[ "isAdmin" := JBool false ]} ]})))
    as (t & Ht & Hrole).
  - reflexivity.
  - simpl. apply list_elem_of_here.
  - simpl. apply list_elem_of_further, list_elem_of_here.
  - lia.
  - exists t. split; [exact Ht |]. rewrite Hrole. reflexivity.
Defined.

Lemma flashMessages_are_the_calls_witness :
  exists s,
    run Sample.imports (module_load Sample.imports Sample.no_wallet)
      [ Commit Sample.imports (Sample.render_with JUndefined);
        FlashError Sample.imports (JStr "Can't get the builder's data");
        FlashSuccess Sample.imports (JStr "Saved") ] = Some s /\
    flashMessages s =
      [ {| status := "error"; text := JStr "Can't get the builder's data" |};
        {| status := "success"; text := JStr "Saved" |} ].
Proof.
  eexists. split; [reflexivity |].
  apply (flashMessages_are_the_calls Sample.imports Sample.no_wallet
           [ Commit Sample.imports (Sample.render_with JUndefined);
             FlashError Sample.imports (JStr "Can't get the builder's data");
             FlashSuccess Sample.imports (JStr "Saved") ]).
  reflexivity.
Defined.

Lemma cells_written_by_their_event_witness :
  exists s',
    step Sample.imports (module_load Sample.imports Sample.no_wallet)
      (Commit Sample.imports (Sample.render_with (JStr "0xA"))) = Some s' /\
    userRole s' = USER_ROLES.anonymous.
Proof.
  eexists. split; [reflexivity |].
  destruct (cells_written_by_their_event Sample.imports
              (module_load Sample.imports Sample.no_wallet) _
              (Commit Sample.imports (Sample.render_with (JStr "0xA"))) eq_refl)
    as [Hrole _].
  apply Hrole. reflexivity.
Defined.

Lemma injectedProvider_from_connect_witness :
  exists s,
    run Sample.imports (module_load Sample.imports Sample.no_wallet)
      [ Commit Sample.imports (Sample.render_with JUndefined);
        Click_loadWeb3Modal Sample.imports;
        ConnectSettled Sample.imports (Throw (JStr "Modal closed by user")) ] = Some s /\
    (injectedProvider s = JUndefined \/
     exists p,
       ConnectSettled Sample.imports (Normal p) ∈
         [ Commit Sample.imports (Sample.render_with JUndefined);
           Click_loadWeb3Modal Sample.imports;
           ConnectSettled Sample.imports (Throw (JStr "Modal closed by user")) ] /\
       Web3Provider Sample.imports p = Normal (injectedProvider s)).
Proof.
  eexists. split; [reflexivity |].
  apply (injectedProvider_from_connect Sample.imports Sample.no_wallet
           [ Commit Sample.imports (Sample.render_with JUndefined);
             Click_loadWeb3Modal Sample.imports;
             ConnectSettled Sample.imports (Throw (JStr "Modal closed by user")) ]).
  reflexivity.
Defined.

Lemma module_objects_created_once_witness :
  exists s,
    run Sample.imports (module_load Sample.imports Sample.with_wallet)
      [ Commit Sample.imports (Sample.render_with (JStr "0xA"));
        Commit Sample.imports (Sample.render_with (JStr "0xB"));
        WalletEvent Sample.imports "chainChanged" JUndefined ] = Some s /\
    registrations (trace s) = ["chainChanged"; "accountsChanged"].
Proof.
  eexists. split; [reflexivity |].
  apply (module_objects_created_once Sample.imports Sample.with_wallet
           [ Commit Sample.imports (Sample.render_with (JStr "0xA"));
             Commit Sample.imports (Sample.render_with (JStr "0xB"));
             WalletEvent Sample.imports "chainChanged" JUndefined ]).
  reflexivity.
Defined.

Lemma connect_on_its_own_at_most_once_witness :
  exists s,
    run Sample.imports (module_load Sample.imports Sample.no_wallet)
      [ Commit Sample.imports (Sample.render_with (JStr "0xA"));
        Click_loadWeb3Modal Sample.imports;
        Commit Sample.imports (Sample.render_with (JStr "0xB")) ] = Some s /\
    (length (connects (trace s)) <= 2)%nat.
Proof.
  eexists. split; [reflexivity |].
  destruct (connect_on_its_own_at_most_once Sample.imports Sample.no_wallet
              [ Commit Sample.imports (Sample.render_with (JStr "0xA"));
                Click_loadWeb3Modal Sample.imports;
                Commit Sample.imports (Sample.render_with (JStr "0xB")) ]
              _ eq_refl) as [Hbound _].
  exact Hbound.
Defined.

Lemma no_reload_unless_asked_witness :
  exists s,
    run Sample.imports (module_load Sample.imports Sample.with_wallet)
      [ Commit Sample.imports (Sample.render_with (JStr "0xA"));
        WalletEvent Sample.imports "accountsChanged" JUndefined;
        FetchSettled Sample.imports 0 (Throw (JStr "Network Error")) ] = Some s /\
    reloads (trace s) = [].
Proof.
  eexists. split; [reflexivity |].
  apply (no_reload_unless_asked Sample.imports Sample.with_wallet
           [ Commit Sample.imports (Sample.render_with (JStr "0xA"));
             WalletEvent Sample.imports "accountsChanged" JUndefined;
             FetchSettled Sample.imports 0 (Throw (JStr "Network Error")) ]).
  - repeat constructor.
  - reflexivity.
Defined.
